(** * FAO agro-climatic scrapers: the aggregation-with-fallback pipelines

    A shallow embedding of [backend/scripts/farm_scraper.py] and
    [backend/scripts/climate_scraper.py], followed by the properties of
    the two pipelines.

    Modelling conventions.
    - The HTTP layer is a collaborator: every request of a script is
      represented by the response it received, a status code together
      with the decoded content ([response.json()], or the rows and cells
      selected from the markup).  A pipeline is then a function of these
      responses and of its command-line arguments.  What a request sends
      (URL, parameters, headers) and a request that raises instead of
      answering are not represented; in particular the rebinding of
      [headers] at line 107 of the climate script is not tracked.
    - The farm id is the integer [int(farm_id)]; an argument that does
      not read as an integer is not represented.
    - Python numbers are rationals ([Q]) or integers ([Z]); the binary
      floating point of the interpreter is idealised to exact arithmetic.
      [round] is Python's (ties go to the even integer).
    - A decoded JSON mapping is a record with one optional field per key
      the scripts read; the field holds what [item.get(key)] returns,
      [None] standing for a key that is missing or null.  Numbers are the
      only scalars in numeric positions.
    - An insertion-ordered [dict] built by the code is an association
      list; the constant look-up tables are [gmap]s keyed by strings.
    - [raise] is the [Raise] constructor of [result]. *)

From Stdlib Require Import ZArith QArith Qround Qminmax Lia Lqa.
From stdpp Require Import gmap strings list fin_maps.

Local Open Scope string_scope.
Local Open Scope Z_scope.

(** ** Python notions shared by both scripts *)

Module Py.

Inductive exn : Type :=
| FailedAccess (what : string) (status : Z)
| JSONDecodeError
| ZeroDivisionError
| IndexError.

Inductive result (A : Type) : Type :=
| Ok (a : A)
| Raise (e : exn).
Arguments Ok {A} a.
Arguments Raise {A} e.

Definition bind {A B} (m : result A) (k : A -> result B) : result B :=
  match m with
  | Ok a => k a
  | Raise e => Raise e
  end.

Definition returns {A} (m : result A) : Prop := exists a, m = Ok a.

(** [for x in l: ...] where the body may raise. *)
Fixpoint traverse {A B} (f : A -> result B) (l : list A) : result (list B) :=
  match l with
  | [] => Ok []
  | x :: l' =>
      bind (f x) (fun y => bind (traverse f l') (fun ys => Ok (y :: ys)))
  end.

(** A response of [requests.get]. *)
Record response (A : Type) : Type :=
  { status_code : Z; content : A }.
Arguments status_code {A} r.
Arguments content {A} r.

Definition ok {A} (r : response A) : bool := status_code r =? 200.

(** [response.json()]: the decoded document, or a decoding error. *)
Definition json {A} (r : response (option A)) : result A :=
  match content r with
  | Some j => Ok j
  | None => Raise JSONDecodeError
  end.

(** [round(x)] on a float: nearest integer, ties to even. *)
Definition round (q : Q) : Z :=
  let f := Qfloor q in
  match (q - inject_Z f ?= 1 # 2)%Q with
  | Lt => f
  | Gt => f + 1
  | Eq => if Z.even f then f else f + 1
  end.

(** [x / y] on numbers. *)
Definition div (x y : Q) : result Q :=
  if Qeq_bool y 0 then Raise ZeroDivisionError else Ok (x / y)%Q.

(** [x % m] on floats (the sign follows the divisor). *)
Definition fmod (x m : Q) : Q := (x - m * inject_Z (Qfloor (x / m)))%Q.

(** Truth value of a number and of a string. *)
Definition truthy (q : Q) : bool := negb (Qeq_bool q 0).
Definition nonempty (s : string) : bool := negb (String.eqb s "").


(** [l[i]], negative indices counting from the end. *)
Definition index {A} (l : list A) (i : Z) : result A :=
  let j := if i <? 0 then i + Z.of_nat (length l) else i in
  if j <? 0 then Raise IndexError
  else match l !! Z.to_nat j with
       | Some x => Ok x
       | None => Raise IndexError
       end.

(** [a % b] on integers (the sign follows the divisor). *)
Definition imod (a b : Z) : result Z :=
  if b =? 0 then Raise ZeroDivisionError else Ok (a mod b).

(** [enumerate(l)] *)
Fixpoint enumerate_from {A} (i : Z) (l : list A) : list (Z * A) :=
  match l with
  | [] => []
  | x :: l' => (i, x) :: enumerate_from (i + 1) l'
  end.
Definition enumerate {A} (l : list A) : list (Z * A) := enumerate_from 0 l.

(** [sum(...)] over integers. *)
Definition sum (l : list Z) : Z := foldr Z.add 0 l.

(** [d[k] = v] on an insertion-ordered dict: an existing key keeps its
    position, a new key goes last. *)
Fixpoint dict_set {V} (k : string) (v : V) (d : list (string * V))
  : list (string * V) :=
  match d with
  | [] => [(k, v)]
  | (k', v') :: d' =>
      if String.eqb k' k then (k, v) :: d' else (k', v') :: dict_set k v d'
  end.

End Py.

Import Py.

Notation "'let*' x ':=' m 'in' k" := (Py.bind m (fun x => k))
  (at level 10, x name, m at level 100, k at level 200).

Definition months : list string :=
  ["Jan"; "Feb"; "Mar"; "Apr"; "May"; "Jun";
   "Jul"; "Aug"; "Sep"; "Oct"; "Nov"; "Dec"].

(** ** [farm_scraper.py] *)

Module Farm.

(** *** Decoded payloads *)

(** An entry of [land_data['data']]; [land_value] is the ['value'] key. *)
Record land_item := { land_value : option Q }.
Record land_json := { land_rows : option (list land_item) }.

(** [soil_json['properties']]. *)
Record soil_props :=
  { prop_ph : option Q; prop_om : option Q; prop_n : option Q;
    prop_p : option Q; prop_k : option Q; prop_whc : option Q }.
Record soil_json := { properties : option soil_props }.

(** An entry of [crop_json['data']]. *)
Record crop_item := { item_name : option string; item_value : option Q }.
Record crop_json := { crop_rows : option (list crop_item) }.

(** The responses received by one run, in request order.  The water
    and risk documents are fetched but their content is never used
    (both branches end in [pass]). *)
Record world :=
  { site_response : response unit;
    land_response : response (option land_json);
    soil_response : response (option soil_json);
    crop_response : response (option crop_json);
    water_response : response unit;
    risk_response : response unit }.

(** *** The returned record *)

Record Coords := { lat : Q; lng : Q }.

Record SoilAnalysis :=
  { ph : Q; organic_matter : Q; nitrogen : Q; phosphorus : Q;
    potassium : Q; water_holding_capacity : Q }.

Record DistributionEntry := { name : string; value : Z }.

Record WaterEntry :=
  { month : string; rainfall : Z; irrigation : Z; efficiency : Z }.

Record RiskEntry :=
  { type : string; probability : Z; impact : Z; mitigation : string }.

Record FarmInfo :=
  { id : Z; farm_name : string; size : Z; location : Coords;
    soil_type : string; irrigation_type : string; crops : list string }.

Record FarmData :=
  { farm_info : FarmInfo;
    soil_analysis : SoilAnalysis;
    field_distribution : list DistributionEntry;
    water_usage : list WaterEntry;
    risk_assessment : list RiskEntry;
    data_source : string }.

(** *** Regional parameter tables *)

Definition farm_names : gmap string (list string) :=
  list_to_map
    [("1", ["Green Valley Farm"; "Sahara Oasis"; "Atlas Highland"]);
     ("2", ["Eastern Plains"; "Highland Ranch"; "Victoria Farm"]);
     ("3", ["Congo Basin Farm"; "Equatorial Estate"; "Rainforest Plantation"]);
     ("4", ["Kalahari Estate"; "Cape Vineyard"; "Southern Meadows"]);
     ("5", ["Savanna Ranch"; "Niger Delta Farm"; "Coastal Plantation"])].

Definition region_coords : gmap string Coords :=
  list_to_map
    [("1", {| lat := 30.8; lng := 9.4 |});
     ("2", {| lat := 0.3; lng := 37.9 |});
     ("3", {| lat := 6.6; lng := 20.9 |});
     ("4", {| lat := -26.5; lng := 24.7 |});
     ("5", {| lat := 11.7; lng := -4.3 |})].

Record pattern :=
  { rain_base : Z; rain_peak : Z; irr_base : Z; irr_peak : Z }.

Definition patterns : gmap string pattern :=
  list_to_map
    [("1", {| rain_base := 30; rain_peak := 0; irr_base := 50; irr_peak := 6 |});
     ("2", {| rain_base := 60; rain_peak := 3; irr_base := 40; irr_peak := 7 |});
     ("3", {| rain_base := 100; rain_peak := 7; irr_base := 30; irr_peak := 1 |});
     ("4", {| rain_base := 50; rain_peak := 1; irr_base := 45; irr_peak := 7 |});
     ("5", {| rain_base := 80; rain_peak := 8; irr_base := 35; irr_peak := 2 |})].

Definition irrigation_types : list string :=
  ["Drip"; "Sprinkler"; "Flood"; "Center Pivot"; "Subsurface"].

Definition regional_preferences : gmap string (list Z) :=
  list_to_map
    [("1", [0; 2; 4]);
     ("2", [0; 1; 3]);
     ("3", [1; 2; 4]);
     ("4", [0; 1; 3]);
     ("5", [1; 2; 3])].

(** *** Categorical derivers *)

(** [get_soil_type(ph, organic_matter)] *)
Definition get_soil_type (ph organic_matter : Q) : string :=
  if Qlt_le_dec ph 5.5 then
    if Qlt_le_dec organic_matter 3 then "Sandy Loam" else "Loamy Sand"
  else if Qlt_le_dec ph 6.5 then
    if Qlt_le_dec organic_matter 3 then "Silt Loam" else "Clay Loam"
  else
    if Qlt_le_dec organic_matter 3 then "Silty Clay" else "Clay Loam".

(** [regional_preferences.get(region_id, [0, 1, 2])] *)
Definition preferences (region_id : string) : list Z :=
  default [0; 1; 2] (regional_preferences !! region_id).

(** [get_irrigation_type(region_id, farm_id)]; [farm_id] stands for
    [int(farm_id)]. *)
Definition get_irrigation_type (region_id : string) (farm_id : Z)
  : result string :=
  let preferences := preferences region_id in
  let* index := Py.imod farm_id (Z.of_nat (length preferences)) in
  let* p := Py.index preferences index in
  Py.index irrigation_types p.

(** *** Farm size and soil analysis *)

(** Lines 74-78: the first entry of the land data, scaled and clamped. *)
Definition farm_size_of (land_data : land_json) : Q :=
  match land_rows land_data with
  | Some (item :: _) =>
      let total_ag_land := default 0%Q (land_value item) in
      Qmax 50 (Qmin 1000 (total_ag_land / 10000))
  | _ => 100%Q
  end.

Definition default_soil : SoilAnalysis :=
  {| ph := 6.5; organic_matter := 2.0; nitrogen := 50; phosphorus := 30;
     potassium := 150; water_holding_capacity := 0.15 |}.

(** Lines 84-107; a decoding error is swallowed by the [try]. *)
Definition soil_data_of (r : response (option soil_json)) : SoilAnalysis :=
  if ok r then
    match content r with
    | Some soil_json =>
        match properties soil_json with
        | Some props =>
            {| ph := default 6.5%Q (prop_ph props);
               organic_matter := default 2.0%Q (prop_om props);
               nitrogen := default 50%Q (prop_n props);
               phosphorus := default 30%Q (prop_p props);
               potassium := default 150%Q (prop_k props);
               water_holding_capacity := default 0.15%Q (prop_whc props) |}
        | None => default_soil
        end
    | None => default_soil
    end
  else default_soil.

(** *** Field-distribution normalizer (lines 121-155) *)

Definition default_distribution : list DistributionEntry :=
  [ {| name := "Wheat"; value := 25 |};
    {| name := "Barley"; value := 20 |};
    {| name := "Maize"; value := 15 |};
    {| name := "Fallow"; value := 10 |} ].

(** One turn of the loop of lines 134-140 on the state [(crops, total)]. *)
Definition accumulate_item (st : list (string * Q) * Q) (item : crop_item)
  : list (string * Q) * Q :=
  let crop_name := default "" (item_name item) in
  let value := default 0%Q (item_value item) in
  if Py.nonempty crop_name && Py.truthy value
  then (Py.dict_set crop_name value (fst st), (snd st + value)%Q)
  else st.

Definition accumulate (rows : list crop_item) : list (string * Q) * Q :=
  fold_left accumulate_item rows ([], 0%Q).

(** Lines 144-149. *)
Definition percentages (crops : list (string * Q)) (total : Q)
  : list DistributionEntry :=
  map (fun cv => let percentage := ((snd cv / total) * 70)%Q in
                 {| name := fst cv; value := Py.round percentage |})
      crops.

(** Lines 152-155. *)
Definition add_fallow (fd : list DistributionEntry)
  : list DistributionEntry :=
  fd ++ [ {| name := "Fallow";
             value := Z.max 5 (100 - Py.sum (map value fd)) |} ].

(** Lines 142-155 with the default of lines 121-126. *)
Definition normalize (crops : list (string * Q)) (total : Q)
  : list DistributionEntry :=
  if Qlt_le_dec 0 total then add_fallow (percentages crops total)
  else default_distribution.

Definition field_distribution_of (r : response (option crop_json))
  : result (list DistributionEntry) :=
  if ok r then
    let* crop_json := Py.json r in
    match crop_rows crop_json with
    | Some rows =>
        let st := accumulate rows in Ok (normalize (fst st) (snd st))
    | None => Ok default_distribution
    end
  else Ok default_distribution.

(** *** Seasonal synthesizer (lines 195-217) *)

(** Lines 198-200 (and 204-206). *)
Definition circular_offset (i peak : Z) : Z :=
  let offset := Z.abs ((i - peak) mod 12) in
  if 6 <? offset then 12 - offset else offset.

(** The seasonal level before rounding (lines 201 and 207). *)
Definition seasonal (base offset : Z) : Q :=
  (inject_Z base * (2 - inject_Z offset / 3))%Q.

(** The body of the loop for month index [i]. *)
Definition synthesize_month (p : pattern) (i : Z) (month : string)
  : result WaterEntry :=
  let rain_offset := circular_offset i (rain_peak p) in
  let rainfall := seasonal (rain_base p) rain_offset in
  let irr_offset := circular_offset i (irr_peak p) in
  let irrigation := seasonal (irr_base p) irr_offset in
  let* ratio := Py.div rainfall (inject_Z (rain_base p * 2)) in
  let efficiency := (65 + 25 * (1 - ratio))%Q in
  Ok {| month := month;
        rainfall := Py.round rainfall;
        irrigation := Py.round irrigation;
        efficiency := Py.round efficiency |}.

Definition synthesize (p : pattern) : result (list WaterEntry) :=
  Py.traverse (fun im => synthesize_month p (fst im) (snd im))
              (Py.enumerate months).

(** *** Default risk table (lines 229-254) *)

Definition default_risk_assessment : list RiskEntry :=
  [ {| type := "Drought"; probability := 50; impact := 3;
       mitigation := "Implement water conservation practices and drought-resistant crop varieties." |};
    {| type := "Pest Infestation"; probability := 40; impact := 3;
       mitigation := "Regular monitoring and integrated pest management strategies." |};
    {| type := "Extreme Weather"; probability := 30; impact := 4;
       mitigation := "Weather-resistant infrastructure and crop insurance." |};
    {| type := "Soil Degradation"; probability := 35; impact := 3;
       mitigation := "Implement crop rotation and cover crops to maintain soil health." |} ].

(** *** The pipeline *)

#[global] Instance pattern_eq_dec : EqDecision pattern.
Proof. solve_decision. Defined.

#[global] Instance pattern_inhabited : Inhabited pattern :=
  populate {| rain_base := 0; rain_peak := 0; irr_base := 0; irr_peak := 0 |}.

(** [farm_list], [base_coords] and [pattern] of lines 38, 52 and 182. *)
Definition farm_list_of (region_id : string) : list string :=
  default ["Unknown Farm"] (farm_names !! region_id).
Definition base_coords_of (region_id : string) : Coords :=
  default {| lat := 0; lng := 0 |} (region_coords !! region_id).
Definition pattern_of (region_id : string) : pattern :=
  default (patterns !!! "1") (patterns !! region_id).

(** [scrape_fao_farm_data(farm_id, region_id)]; [farm_id] stands for
    [int(farm_id)]. *)
Definition scrape_fao_farm_data (w : world) (farm_id : Z)
           (region_id : string) : result FarmData :=
  if negb (ok (site_response w)) then
    Raise (FailedAccess "FAO website" (status_code (site_response w)))
  else
  let farm_list := farm_list_of region_id in
  let* farm_index := Py.imod farm_id (Z.of_nat (length farm_list)) in
  let* farm_name := Py.index farm_list farm_index in
  let base_coords := base_coords_of region_id in
  let lat_offset := Py.fmod (inject_Z farm_id * 0.1) 1.0 in
  let lng_offset := Py.fmod (inject_Z farm_id * 0.15) 1.5 in
  if negb (ok (land_response w)) then
    Raise (FailedAccess "FAO land API" (status_code (land_response w)))
  else
  let* land_data := Py.json (land_response w) in
  let farm_size := farm_size_of land_data in
  let soil_data := soil_data_of (soil_response w) in
  let* field_distribution := field_distribution_of (crop_response w) in
  let pattern := pattern_of region_id in
  let water_usage : list WaterEntry := [] in
  let* water_usage :=
    match water_usage with
    | [] => synthesize pattern
    | _ => Ok water_usage
    end in
  let risk_assessment := default_risk_assessment in
  let* irrigation_type := get_irrigation_type region_id farm_id in
  Ok {| farm_info :=
          {| id := farm_id;
             farm_name := farm_name;
             size := Py.round farm_size;
             location :=
               {| lat := (lat base_coords + lat_offset)%Q;
                  lng := (lng base_coords + lng_offset)%Q |};
             soil_type :=
               get_soil_type (ph soil_data) (organic_matter soil_data);
             irrigation_type := irrigation_type;
             crops :=
               map name
                   (filter (fun item => name item <> "Fallow")
                           field_distribution) |};
        soil_analysis := soil_data;
        field_distribution := field_distribution;
        water_usage := water_usage;
        risk_assessment := risk_assessment;
        data_source := "FAOSTAT (Scraped)" |}.

End Farm.

(** ** [climate_scraper.py] *)

Module Climate.

(** *** Decoded payloads *)

(** An entry of [data['data']]: what [item.get('year')] and
    [item.get('value')] return. *)
Record trend_item := { item_year : option Q; item_value : option Q }.
Record trend_json := { trend_rows : option (list trend_item) }.

(** A [td] cell: the number [float(cell.text.strip())] reads, [None]
    when it raises [ValueError]. *)
Definition cell : Type := option Q.

(** A selected table: the stripped texts of its [th] elements and the
    cells of each of its [tr] rows. *)
Record html_table := { th : list string; tr : list (list cell) }.

(** An entry of [wb_data['monthlyData']]. *)
Record wb_month :=
  { wb_temperature : option Q; wb_precipitation : option Q }.
Record wb_json := { monthlyData : option (gmap string wb_month) }.

(** The responses of one run.  The three monthly sources are only
    requested when the code reaches them. *)
Record world :=
  { site_response : response unit;
    api_response : response (option trend_json);
    rainfall_response : response (option trend_json);
    monthly_response : response (list html_table);
    wb_response : response (option wb_json);
    giews_response : response (list html_table) }.

(** *** The returned record *)

Record MonthEntry := { month : string; temperature : Q; rainfall : Q }.


(** *** Yearly trends (lines 52-64 and 80-92) *)




(** *** Monthly series (lines 94-173) *)

(** ['Month' in headers and ('Temperature' in headers or 'Rainfall' in
    headers)] *)
Definition qualifies (t : html_table) : bool :=
  bool_decide ("Month" ∈ th t)
  && (bool_decide ("Temperature" ∈ th t) || bool_decide ("Rainfall" ∈ th t)).

(** The body of the loop over the enumerated rows (lines 111-124 and
    160-173): a row beyond the twelfth, a short row or a cell that is
    not a number leaves the series unchanged. *)
Definition read_row (acc : list MonthEntry) (ir : Z * list cell)
  : list MonthEntry :=
  let i := fst ir in
  let cells := snd ir in
  if i <? Z.of_nat (length months) then
    if 3 <=? Z.of_nat (length cells) then
      match cells !! 1%nat, cells !! 2%nat, Py.index months i with
      | Some (Some temp_value), Some (Some rain_value), Ok m =>
          acc ++ [ {| month := m; temperature := temp_value;
                      rainfall := rain_value |} ]
      | _, _, _ => acc
      end
    else acc
  else acc.

(** [for i, row in enumerate(rows[1:])] *)
Definition read_rows (acc : list MonthEntry) (rows : list (list cell))
  : list MonthEntry :=
  fold_left read_row (Py.enumerate (tail rows)) acc.

(** Lines 101-124: every qualifying table of the page adds its rows. *)
Definition read_tables (tables : list html_table) : list MonthEntry :=
  fold_left (fun acc t => if qualifies t then read_rows acc (tr t) else acc)
            tables [].





(** *** The pipeline *)


End Climate.

(** ** Vocabulary of the properties *)

(** The region ids of the fixed enumeration. *)
Definition known_regions : list string := ["1"; "2"; "3"; "4"; "5"].



Definition Qsum (l : list Q) : Q := foldr Qplus 0%Q l.

(** Non-negative production values, in a crop mapping and in the rows
    it is built from. *)
Definition nonneg_values (d : list (string * Q)) : Prop :=
  Forall (fun cv => (0 <= snd cv)%Q) d.
Definition nonneg_rows (rows : list Farm.crop_item) : Prop :=
  Forall (fun item => forall v, Farm.item_value item = Some v -> (0 <= v)%Q)
         rows.

(** A hundred distinct crops of production 1 each. *)
Fixpoint crop_label (n : nat) : string :=
  match n with
  | O => "c"
  | S n' => "x" +:+ crop_label n'
  end.
Definition hundred_crops : list Farm.crop_item :=
  map (fun n => {| Farm.item_name := Some (crop_label n);
                   Farm.item_value := Some 1%Q |})
      (seq 0 100).


(** The entry of month index [i] once the division of line 210 is
    defined: the three rounded levels. *)
Definition synthesized_entry (p : Farm.pattern) (i : Z) (m : string)
  : Farm.WaterEntry :=
  let rain :=
    Farm.seasonal (Farm.rain_base p)
                  (Farm.circular_offset i (Farm.rain_peak p)) in
  let irr :=
    Farm.seasonal (Farm.irr_base p)
                  (Farm.circular_offset i (Farm.irr_peak p)) in
  {| Farm.month := m;
     Farm.rainfall := Py.round rain;
     Farm.irrigation := Py.round irr;
     Farm.efficiency :=
       Py.round (65 + 25 * (1 - rain / inject_Z (Farm.rain_base p * 2)))%Q |}.

(** The entry as the specification words it, the efficiency being
    computed from the rainfall already rounded. *)
Definition spec_entry (p : Farm.pattern) (i : Z) (m : string)
  : Farm.WaterEntry :=
  let distance peak :=
    let d := Z.abs ((i - peak) mod 12) in if 6 <? d then 12 - d else d in
  let rainfall :=
    Py.round (inject_Z (Farm.rain_base p)
              * (2 - inject_Z (distance (Farm.rain_peak p)) / 3))%Q in
  let irrigation :=
    Py.round (inject_Z (Farm.irr_base p)
              * (2 - inject_Z (distance (Farm.irr_peak p)) / 3))%Q in
  {| Farm.month := m;
     Farm.rainfall := rainfall;
     Farm.irrigation := irrigation;
     Farm.efficiency :=
       Py.round (65 + 25 * (1 - inject_Z rainfall
                                / inject_Z (Farm.rain_base p * 2)))%Q |}.

(** The bounds of a synthesized entry. *)
Definition in_bounds (e : Farm.WaterEntry) : Prop :=
  0 <= Farm.rainfall e /\ 0 <= Farm.irrigation e
  /\ 65 <= Farm.efficiency e <= 90.

(** The five configured patterns. *)
Definition configured_patterns : list Farm.pattern :=
  [ {| Farm.rain_base := 30; Farm.rain_peak := 0;
       Farm.irr_base := 50; Farm.irr_peak := 6 |};
    {| Farm.rain_base := 60; Farm.rain_peak := 3;
       Farm.irr_base := 40; Farm.irr_peak := 7 |};
    {| Farm.rain_base := 100; Farm.rain_peak := 7;
       Farm.irr_base := 30; Farm.irr_peak := 1 |};
    {| Farm.rain_base := 50; Farm.rain_peak := 1;
       Farm.irr_base := 45; Farm.irr_peak := 7 |};
    {| Farm.rain_base := 80; Farm.rain_peak := 8;
       Farm.irr_base := 35; Farm.irr_peak := 2 |} ].



(** Sample responses. *)
Definition answered {A} (a : A) : response A :=
  {| status_code := 200; content := a |}.
Definition unavailable {A} (a : A) : response A :=
  {| status_code := 503; content := a |}.

(** A farm run where only the site and the land API answer. *)
Definition farm_run_defaults : Farm.world :=
  {| Farm.site_response := answered tt;
     Farm.land_response := answered (Some {| Farm.land_rows := None |});
     Farm.soil_response := unavailable None;
     Farm.crop_response := unavailable None;
     Farm.water_response := unavailable tt;
     Farm.risk_response := unavailable tt |}.





(** The soil categories listed at line 291 of the farm script. *)
Definition soil_types : list string :=
  ["Clay Loam"; "Sandy Loam"; "Silt Loam"; "Loamy Sand"; "Silty Clay"].

(** The irrigation types a region prefers: the entries of
    [irrigation_types] at the indices of its preference list. *)
Definition preferred_types (region_id : string) : list string :=
  omap (fun p => Farm.irrigation_types !! Z.to_nat p)
       (Farm.preferences region_id).





(** What a table contributes to the monthly series. *)
Definition table_entries (t : Climate.html_table) : list Climate.MonthEntry :=
  if Climate.qualifies t then Climate.read_rows [] (Climate.tr t) else [].




(** * Properties *)

(** ** Rounding *)

Section Rounding.
Local Open Scope Q_scope.

Lemma round_cases (q : Q) :
  let f := Qfloor q in
  (Py.round q = f /\ q - inject_Z f <= 1 # 2) \/
  (Py.round q = (f + 1)%Z /\ 1 # 2 <= q - inject_Z f).
Proof.
  intros f. unfold Py.round. fold f.
  destruct (q - inject_Z f ?= 1 # 2) eqn:E.
  - apply Qeq_alt in E. destruct (Z.even f); [left | right]; split; auto; lra.
  - apply Qlt_alt in E. left. split; auto. lra.
  - apply Qgt_alt in E. right. split; auto. lra.
Qed.


Lemma round_lower (a : Z) (q : Q) : inject_Z a <= q -> (a <= Py.round q)%Z.
Proof.
  intros H. apply Qfloor_resp_le in H. rewrite Qfloor_Z in H.
  destruct (round_cases q) as [[-> _] | [-> _]]; lia.
Qed.

Lemma round_upper (a : Z) (q : Q) : q <= inject_Z a -> (Py.round q <= a)%Z.
Proof.
  intros H. pose proof (Qfloor_le q) as Hf.
  destruct (round_cases q) as [[-> _] | [-> Hh]].
  - apply Qfloor_resp_le in H. rewrite Qfloor_Z in H. exact H.
  - assert (inject_Z (Qfloor q) < inject_Z a) as Hlt by lra.
    rewrite <- Zlt_Qlt in Hlt. lia.
Qed.

End Rounding.

(** ** The regional tables *)

Section Tables.
Import Farm.

Lemma preferences_length (region_id : string) :
  length (preferences region_id) = 3%nat.
Proof.
  assert (map_Forall (fun _ l => length l = 3%nat) regional_preferences) as H
    by (apply (bool_decide_unpack _); vm_compute; reflexivity).
  unfold preferences. destruct (regional_preferences !! region_id) eqn:E.
  - exact (H _ _ E).
  - reflexivity.
Qed.

Lemma preferences_in_range (region_id : string) :
  Forall (fun p => 0 <= p < 5) (preferences region_id).
Proof.
  assert (map_Forall (fun _ l => Forall (fun p => 0 <= p < 5) l)
                     regional_preferences) as H
    by (apply (bool_decide_unpack _); vm_compute; reflexivity).
  unfold preferences. destruct (regional_preferences !! region_id) eqn:E.
  - exact (H _ _ E).
  - cbn. repeat constructor; lia.
Qed.

Lemma farm_list_length (region_id : string) :
  (0 < length (farm_list_of region_id))%nat.
Proof.
  assert (map_Forall (fun _ (l : list string) => (0 < length l)%nat)
                     farm_names) as H
    by (apply (bool_decide_unpack _); vm_compute; reflexivity).
  unfold farm_list_of. destruct (farm_names !! region_id) eqn:E.
  - exact (H _ _ E).
  - cbn. lia.
Qed.

Lemma pattern_of_positive (region_id : string) :
  0 < rain_base (pattern_of region_id) /\ 0 < irr_base (pattern_of region_id).
Proof.
  assert (map_Forall (fun _ p => 0 < rain_base p /\ 0 < irr_base p) patterns)
    as H by (apply (bool_decide_unpack _); vm_compute; reflexivity).
  unfold pattern_of. destruct (patterns !! region_id) eqn:E.
  - exact (H _ _ E).
  - vm_compute. split; reflexivity.
Qed.

Lemma unknown_lookup {V} (l : list (string * V)) (region_id : string) :
  region_id ∉ l.*1 -> (list_to_map l : gmap string V) !! region_id = None.
Proof. apply not_elem_of_list_to_map_1. Qed.
End Tables.

(** ** Python list indexing *)

Lemma index_in_range {A} (l : list A) (i : Z) :
  0 <= i < Z.of_nat (length l) ->
  exists x, Py.index l i = Ok x /\ l !! Z.to_nat i = Some x.
Proof.
  intros H. unfold Py.index.
  destruct (i <? 0) eqn:E; [lia |]. rewrite E.
  destruct (l !! Z.to_nat i) eqn:El; [eauto |].
  apply lookup_ge_None in El. lia.
Qed.

(** ** Categorical derivers *)

Lemma get_irrigation_type_returns (region_id : string) (farm_id : Z) :
  Py.returns (Farm.get_irrigation_type region_id farm_id).
Proof.
  pose proof (preferences_length region_id) as Hlen.
  unfold Farm.get_irrigation_type, Py.imod. rewrite Hlen.
  change (Z.of_nat 3 =? 0) with false. cbv iota.
  destruct (index_in_range (Farm.preferences region_id)
                           (farm_id mod Z.of_nat 3)) as (p & Hp & Hl).
  { rewrite Hlen. apply Z.mod_pos_bound. lia. }
  cbn [Py.bind]. rewrite Hp. cbn [Py.bind].
  pose proof (preferences_in_range region_id) as Hr.
  rewrite Forall_lookup in Hr. specialize (Hr _ _ Hl).
  destruct (index_in_range Farm.irrigation_types p) as (t & Ht & _).
  { cbn. lia. }
  exists t. exact Ht.
Qed.

(** C8. Periodicity of the irrigation type: for every region id, farm
    id and integer [k], shifting the farm id by [k] times the length of
    the region's preference list leaves [get_irrigation_type] unchanged;
    that length is 3 for every region id, configured or not, and the
    function always returns a type. *)
Theorem irrigation_type_periodic (region_id : string) (farm_id k : Z) :
  Farm.get_irrigation_type
    region_id (farm_id + k * Z.of_nat (length (Farm.preferences region_id)))
  = Farm.get_irrigation_type region_id farm_id
  /\ length (Farm.preferences region_id) = 3%nat
  /\ Py.returns (Farm.get_irrigation_type region_id farm_id).
Proof.
  pose proof (preferences_length region_id) as Hlen.
  split; [| split; [exact Hlen | apply get_irrigation_type_returns]].
  unfold Farm.get_irrigation_type, Py.imod. rewrite Hlen.
  change (Z.of_nat 3 =? 0) with false. cbv iota.
  now rewrite Z.mod_add by lia.
Qed.

(** ** Unknown region ids *)

(** C3, counterexample. Region id "9" is outside the enumeration, yet
    the base coordinate used for it is not region 1's {30.8, 9.4}, its
    preference list is not region 1's, and the irrigation type of farm 1
    differs between the two regions. *)
Lemma unknown_region_not_region_1 :
  ("9" ∉ known_regions)
  /\ Farm.region_coords !! "1" = Some {| Farm.lat := 30.8; Farm.lng := 9.4 |}
  /\ ~ (Farm.lat (Farm.base_coords_of "9") == 30.8)%Q
  /\ ~ (Farm.lng (Farm.base_coords_of "9") == 9.4)%Q
  /\ Farm.preferences "1" = [0; 2; 4]
  /\ Farm.preferences "9" <> Farm.preferences "1"
  /\ Farm.get_irrigation_type "9" 1 = Ok "Sprinkler"
  /\ Farm.get_irrigation_type "1" 1 = Ok "Flood".
Proof.
  repeat split; try reflexivity; try (vm_compute; discriminate).
  unfold known_regions. intros H. repeat (apply elem_of_cons in H as [H | H]; [discriminate |]).
  inversion H.
Qed.

(** C3, amended. For every region id outside "1".."5" each table has
    its own default: the base coordinate is {0, 0}, the preference list
    is [0, 1, 2] (Drip, Sprinkler, Flood), the farm-name list is
    ["Unknown Farm"]; only the seasonal pattern is region 1's. *)
Theorem unknown_region_defaults (region_id : string) :
  region_id ∉ known_regions ->
  Farm.base_coords_of region_id = {| Farm.lat := 0; Farm.lng := 0 |}
  /\ Farm.preferences region_id = [0; 1; 2]
  /\ (forall farm_id,
        Farm.get_irrigation_type region_id farm_id
        = Py.index ["Drip"; "Sprinkler"; "Flood"] (farm_id mod 3))
  /\ Farm.farm_list_of region_id = ["Unknown Farm"]
  /\ Farm.pattern_of region_id = Farm.pattern_of "1".
Proof.
  intros Hunknown.
  assert (Farm.preferences region_id = [0; 1; 2]) as Hprefs.
  { unfold Farm.preferences, Farm.regional_preferences.
    now rewrite unknown_lookup. }
  repeat split.
  - unfold Farm.base_coords_of, Farm.region_coords. now rewrite unknown_lookup.
  - exact Hprefs.
  - intros farm_id. unfold Farm.get_irrigation_type. rewrite Hprefs.
    unfold Py.imod. cbn [length]. change (Z.of_nat 3 =? 0) with false.
    cbv iota. change (Z.of_nat 3) with 3.
    pose proof (Z.mod_pos_bound farm_id 3 ltac:(lia)) as Hb.
    assert (farm_id mod 3 = 0 \/ farm_id mod 3 = 1 \/ farm_id mod 3 = 2)
      as [-> | [-> | ->]] by lia; reflexivity.
  - unfold Farm.farm_list_of, Farm.farm_names. now rewrite unknown_lookup.
  - unfold Farm.pattern_of at 1. unfold Farm.patterns at 2.
    now rewrite unknown_lookup.
Qed.

Lemma unknown_region_defaults_witness :
  ("9" ∉ known_regions)
  /\ Farm.base_coords_of "9" = {| Farm.lat := 0; Farm.lng := 0 |}
  /\ Farm.preferences "9" = [0; 1; 2].
Proof.
  assert ("9" ∉ known_regions) as H.
  { unfold known_regions. intros H.
    repeat (apply elem_of_cons in H as [H | H]; [discriminate |]).
    inversion H. }
  split; [exact H |].
  destruct (unknown_region_defaults "9" H) as (Hc & Hp & _).
  split; [exact Hc | exact Hp].
Defined.

(** ** Field-distribution normalizer *)

Section Normalizer.
Import Farm.
Local Open Scope Q_scope.



Lemma dict_set_nonneg (k : string) (v : Q) (d : list (string * Q)) :
  0 <= v -> nonneg_values d -> nonneg_values (Py.dict_set k v d).
Proof.
  intros Hv. unfold nonneg_values.
  induction d as [| [k' v'] d IH]; cbn; intros H.
  - repeat constructor. exact Hv.
  - inversion H; subst. destruct (String.eqb k' k); constructor; auto.
Qed.

Lemma dict_set_sum (k : string) (v : Q) (d : list (string * Q)) :
  nonneg_values d -> Qsum (Py.dict_set k v d).*2 <= Qsum d.*2 + v.
Proof.
  unfold nonneg_values, Qsum.
  induction d as [| [k' v'] d IH]; cbn; intros H.
  - lra.
  - inversion H as [| ? ? Hv' Hd]; subst. cbn in Hv'.
    destruct (String.eqb k' k); cbn.
    + lra.
    + specialize (IH Hd). lra.
Qed.

Lemma accumulate_invariant (rows : list crop_item)
      (st : list (string * Q) * Q) :
  nonneg_rows rows ->
  nonneg_values (fst st) -> Qsum (fst st).*2 <= snd st ->
  let st' := fold_left accumulate_item rows st in
  nonneg_values (fst st') /\ Qsum (fst st').*2 <= snd st'.
Proof.
  revert st. induction rows as [| item rows IH]; intros st Hrows Hnn Hsum; cbn.
  - auto.
  - inversion Hrows as [| ? ? Hitem Hrest]; subst.
    apply IH; [exact Hrest | |]; unfold accumulate_item;
      destruct (Py.nonempty _ && Py.truthy _); cbn [fst snd]; auto.
    + apply dict_set_nonneg; [| exact Hnn].
      destruct (item_value item) as [v |]; cbn; [now apply Hitem | lra].
    + pose proof (dict_set_sum (default "" (item_name item))
                    (default 0 (item_value item)) _ Hnn). lra.
Qed.

Lemma share_nonneg (v total : Q) :
  0 <= v -> 0 < total -> 0 <= v / total * 70.
Proof.
  intros Hv Ht. apply Qmult_le_0_compat; [| lra].
  apply Qle_shift_div_l; [exact Ht | lra].
Qed.






End Normalizer.







Section Synthesizer.
Import Farm.

Lemma traverse_pure {A B} (f : A -> result B) (g : A -> B) (l : list A) :
  (forall x, f x = Ok (g x)) -> Py.traverse f l = Ok (map g l).
Proof.
  intros H. induction l as [| x l IH]; cbn; [reflexivity |].
  now rewrite H, IH.
Qed.


Lemma enumerate_from_snd {A} (l : list A) (k : Z) :
  (Py.enumerate_from k l).*2 = l.
Proof. revert k. induction l; intros k; cbn; f_equal; auto. Qed.

Lemma circular_offset_range (i peak : Z) : 0 <= circular_offset i peak <= 6.
Proof.
  unfold circular_offset.
  pose proof (Z.mod_pos_bound (i - peak) 12 ltac:(lia)).
  destruct (6 <? Z.abs ((i - peak) mod 12)) eqn:E; lia.
Qed.

Lemma div_nonzero (x : Q) (b : Z) :
  b <> 0 -> Py.div x (inject_Z (b * 2)) = Ok (x / inject_Z (b * 2))%Q.
Proof.
  intros Hb. unfold Py.div.
  destruct (Qeq_bool (inject_Z (b * 2)) 0) eqn:E; [| reflexivity].
  apply Qeq_bool_eq in E. unfold Qeq in E. cbn in E. lia.
Qed.

Lemma div_zero (x : Q) : Py.div x (inject_Z (0 * 2)) = Raise ZeroDivisionError.
Proof. reflexivity. Qed.

Lemma synthesize_month_ok (p : pattern) (i : Z) (m : string) :
  rain_base p <> 0 ->
  synthesize_month p i m
  = Ok {| month := m;
          rainfall :=
            Py.round (seasonal (rain_base p) (circular_offset i (rain_peak p)));
          irrigation :=
            Py.round (seasonal (irr_base p) (circular_offset i (irr_peak p)));
          efficiency :=
            Py.round (65 + 25 * (1 - seasonal (rain_base p)
                                       (circular_offset i (rain_peak p))
                                     / inject_Z (rain_base p * 2)))%Q |}.
Proof.
  intros Hb. unfold synthesize_month. now rewrite div_nonzero.
Qed.

Lemma synthesize_zero (p : pattern) :
  rain_base p = 0 -> synthesize p = Raise ZeroDivisionError.
Proof.
  intros Hb. unfold synthesize, Py.enumerate, months.
  cbn [Py.enumerate_from Py.traverse fst snd].
  unfold synthesize_month at 1. rewrite Hb, div_zero. reflexivity.
Qed.

Local Open Scope Q_scope.

Lemma seasonal_nonneg (base d : Z) :
  (0 <= base)%Z -> (0 <= d <= 6)%Z -> 0 <= seasonal base d.
Proof.
  intros Hb [Hd0 Hd6]. unfold seasonal.
  apply Qmult_le_0_compat.
  - change 0 with (inject_Z 0). now rewrite <- Zle_Qle.
  - assert (inject_Z d <= inject_Z 6) as H by now rewrite <- Zle_Qle.
    change (inject_Z 6) with 6 in H.
    unfold Qdiv. change (/ 3) with (1 # 3). lra.
Qed.

Lemma seasonal_ratio (base d : Z) :
  base <> 0%Z ->
  seasonal base d / inject_Z (base * 2)
  == (2 - inject_Z d * (1 # 3)) * (1 # 2).
Proof.
  intros Hb. unfold seasonal. rewrite inject_Z_mult.
  change (inject_Z 2) with 2. field.
  intros H. unfold Qeq in H. cbn in H. lia.
Qed.

Lemma efficiency_range (base d : Z) :
  base <> 0%Z -> (0 <= d <= 6)%Z ->
  65 <= 65 + 25 * (1 - seasonal base d / inject_Z (base * 2)) <= 90.
Proof.
  intros Hb [Hd0 Hd6]. rewrite seasonal_ratio by exact Hb.
  assert (inject_Z 0 <= inject_Z d) as H0 by now rewrite <- Zle_Qle.
  assert (inject_Z d <= inject_Z 6) as H6 by now rewrite <- Zle_Qle.
  change (inject_Z 0) with 0 in H0. change (inject_Z 6) with 6 in H6.
  split; lra.
Qed.

Local Close Scope Q_scope.

Lemma synthesize_series (p : pattern) :
  rain_base p <> 0 ->
  synthesize p
  = Ok (map (fun im => synthesized_entry p (fst im) (snd im))
            (Py.enumerate months)).
Proof.
  intros Hb. unfold synthesize. apply traverse_pure.
  intros [i m]. now apply synthesize_month_ok.
Qed.

Lemma synthesized_entry_in_bounds (p : pattern) (i : Z) (m : string) :
  0 < rain_base p -> 0 <= irr_base p -> in_bounds (synthesized_entry p i m).
Proof.
  intros Hr Hi. unfold in_bounds, synthesized_entry. cbn.
  pose proof (circular_offset_range i (rain_peak p)) as Hdr.
  pose proof (circular_offset_range i (irr_peak p)) as Hdi.
  destruct (efficiency_range (rain_base p) _ ltac:(lia) Hdr) as [Hlo Hhi].
  repeat split.
  - apply (round_lower 0). apply seasonal_nonneg; [lia | exact Hdr].
  - apply (round_lower 0). apply seasonal_nonneg; [lia | exact Hdi].
  - apply (round_lower 65). exact Hlo.
  - apply (round_upper 90). exact Hhi.
Qed.
End Synthesizer.




(** C9. For every regional pattern whose bases are non-negative, every
    entry of the synthesized series has rainfall >= 0, irrigation >= 0
    and 65 <= efficiency <= 90; the series exists as soon as
    [rain_base] is not 0, and it does for every region id, the five
    configured patterns having positive bases. *)
Theorem synthesized_series_bounds :
  (forall p series,
      0 <= Farm.rain_base p -> 0 <= Farm.irr_base p ->
      Farm.synthesize p = Ok series -> Forall in_bounds series)
  /\ (forall p, Farm.rain_base p <> 0 -> Py.returns (Farm.synthesize p))
  /\ (forall region_id,
        exists series,
          Farm.synthesize (Farm.pattern_of region_id) = Ok series
          /\ Forall in_bounds series).
Proof.
  assert (forall p,
             0 < Farm.rain_base p -> 0 <= Farm.irr_base p ->
             Forall in_bounds
                    (map (fun im => synthesized_entry p (fst im) (snd im))
                         (Py.enumerate months))) as Hbounds.
  { intros p Hr Hi. apply Forall_map, Forall_forall. intros [i m] _.
    now apply synthesized_entry_in_bounds. }
  split; [| split].
  - intros p series Hr Hi Hs.
    destruct (Z.eq_dec (Farm.rain_base p) 0) as [H0 | Hn].
    + rewrite synthesize_zero in Hs by exact H0. discriminate.
    + rewrite synthesize_series in Hs by exact Hn.
      injection Hs as <-. apply Hbounds; lia.
  - intros p Hn. eexists. now apply synthesize_series.
  - intros region_id. destruct (pattern_of_positive region_id) as [Hr Hi].
    eexists. split; [apply synthesize_series; lia |].
    apply Hbounds; lia.
Qed.

Lemma synthesized_series_bounds_witness :
  exists series,
    Farm.synthesize {| Farm.rain_base := 1; Farm.rain_peak := 11;
                       Farm.irr_base := 0; Farm.irr_peak := 3 |} = Ok series
    /\ Forall in_bounds series.
Proof.
  eexists. split; [vm_compute; reflexivity |].
  apply (proj1 synthesized_series_bounds
               {| Farm.rain_base := 1; Farm.rain_peak := 11;
                  Farm.irr_base := 0; Farm.irr_peak := 3 |}).
  - vm_compute. discriminate.
  - vm_compute. discriminate.
  - vm_compute. reflexivity.
Defined.


Lemma configured_pattern_of (region_id : string) :
  Farm.pattern_of region_id ∈ configured_patterns.
Proof.
  assert (map_Forall (fun _ p => p ∈ configured_patterns) Farm.patterns) as H
    by (apply (bool_decide_unpack _); vm_compute; reflexivity).
  unfold Farm.pattern_of. destruct (Farm.patterns !! region_id) eqn:E.
  - exact (H _ _ E).
  - cbn. left.
Qed.

(** On the configured patterns, hence for every region id, computing
    the efficiency from the rounded rainfall gives the same series. *)
Lemma configured_patterns_agree (region_id : string) :
  Farm.synthesize (Farm.pattern_of region_id)
  = Ok (map (fun im => spec_entry (Farm.pattern_of region_id) (fst im) (snd im))
            (Py.enumerate months)).
Proof.
  pose proof (configured_pattern_of region_id) as H.
  revert H. generalize (Farm.pattern_of region_id). intros p H.
  unfold configured_patterns in H.
  repeat (apply elem_of_cons in H as [-> | H]; [vm_compute; reflexivity |]).
  inversion H.
Qed.


(** ** Yearly trends *)

Section Trends.
Import Climate.





End Trends.




(** ** The farm record *)

Ltac res_step H :=
  match type of H with
  | (if negb ?b then _ else _) = Ok _ =>
      destruct b eqn:?; cbn [negb] in H; [| discriminate H]
  | Py.bind ?m _ = Ok _ =>
      destruct m eqn:?; cbn [Py.bind] in H; [| discriminate H]
  end.

Section FarmRecord.
Import Farm.

Lemma farm_record_inv (w : world) (farm_id : Z) (region_id : string)
      (record : FarmData) :
  scrape_fao_farm_data w farm_id region_id = Ok record ->
  ok (site_response w) = true
  /\ ok (land_response w) = true
  /\ field_distribution_of (crop_response w)
     = Ok (field_distribution record)
  /\ synthesize (pattern_of region_id) = Ok (water_usage record)
  /\ crops (farm_info record)
     = map name (filter (fun item => name item <> "Fallow")
                        (field_distribution record)).
Proof.
  intros H. unfold scrape_fao_farm_data in H. cbv zeta in H.
  repeat res_step H. injection H as <-. cbn. auto.
Qed.

Lemma fallow_present (r : response (option crop_json))
      (fd : list DistributionEntry) :
  field_distribution_of r = Ok fd -> "Fallow" ∈ map name fd.
Proof.
  assert ("Fallow" ∈ map name default_distribution) as Hdefault
    by (cbn; set_solver).
  unfold field_distribution_of. destruct (ok r).
  - destruct (Py.json r) as [j |]; cbn [Py.bind]; [| discriminate].
    destruct (crop_rows j) as [rows |]; intros [= <-]; [| exact Hdefault].
    unfold normalize. destruct (Qlt_le_dec _ _); [| exact Hdefault].
    unfold add_fallow. rewrite map_app. apply elem_of_app. right.
    cbn. left.
  - intros [= <-]. exact Hdefault.
Qed.

Lemma names_filter (fd : list DistributionEntry) :
  map name (filter (fun item => name item <> "Fallow") fd)
  = filter (fun n => n <> "Fallow") (map name fd).
Proof.
  induction fd as [| e fd IH]; [reflexivity |].
  cbn [map]. rewrite !filter_cons.
  destruct (decide (name e <> "Fallow")); cbn [map]; now rewrite IH.
Qed.

End FarmRecord.

(** C10. In every record the farm pipeline returns, the crops of
    [farm_info] are the names of [field_distribution] without "Fallow",
    in the same order; "Fallow" is not among the crops and is among the
    names of [field_distribution]. *)
Theorem crops_exclude_fallow (w : Farm.world) (farm_id : Z)
        (region_id : string) (record : Farm.FarmData) :
  Farm.scrape_fao_farm_data w farm_id region_id = Ok record ->
  Farm.crops (Farm.farm_info record)
  = filter (fun n => n <> "Fallow")
           (map Farm.name (Farm.field_distribution record))
  /\ ("Fallow" ∉ Farm.crops (Farm.farm_info record))
  /\ ("Fallow" ∈ map Farm.name (Farm.field_distribution record)).
Proof.
  intros H. apply farm_record_inv in H as (_ & _ & Hfd & _ & Hcrops).
  rewrite Hcrops, names_filter. split; [reflexivity |]. split.
  - rewrite list_elem_of_filter. tauto.
  - eapply fallow_present. exact Hfd.
Qed.

Lemma crops_exclude_fallow_witness :
  exists record,
    Farm.scrape_fao_farm_data farm_run_defaults 7 "3" = Ok record
    /\ Farm.crops (Farm.farm_info record) = ["Wheat"; "Barley"; "Maize"]
    /\ ("Fallow" ∉ Farm.crops (Farm.farm_info record)).
Proof.
  eexists. split; [vm_compute; reflexivity |].
  split; [reflexivity |].
  refine (proj1 (proj2 (crops_exclude_fallow farm_run_defaults 7 "3" _ _))).
  vm_compute. reflexivity.
Defined.

(** ** Failing sources *)

Section Failures.





End Failures.




(** ** The monthly series of the climate record *)

Section Monthly.
Import Climate.




End Monthly.




(** * Further properties of the farm script *)

(** ** Soil and irrigation categories *)


(** X1. [get_soil_type] is a decision table over two thresholds of the
    pH (5.5 and 6.5) and one of the organic matter (3): each of the
    five categories of line 291 is returned on exactly one region of
    the plane, "Clay Loam" covering every pH >= 5.5 with organic
    matter >= 3. *)
Theorem soil_type_table (ph organic_matter : Q) :
  let t := Farm.get_soil_type ph organic_matter in
  t ∈ soil_types
  /\ (t = "Sandy Loam" <-> (ph < 5.5 /\ organic_matter < 3)%Q)
  /\ (t = "Loamy Sand" <-> (ph < 5.5 /\ 3 <= organic_matter)%Q)
  /\ (t = "Silt Loam"
      <-> (5.5 <= ph /\ ph < 6.5 /\ organic_matter < 3)%Q)
  /\ (t = "Silty Clay" <-> (6.5 <= ph /\ organic_matter < 3)%Q)
  /\ (t = "Clay Loam" <-> (5.5 <= ph /\ 3 <= organic_matter)%Q).
Proof.
  cbv zeta. unfold Farm.get_soil_type, soil_types.
  destruct (Qlt_le_dec ph 5.5) as [H1 | H1];
    [| destruct (Qlt_le_dec ph 6.5) as [H2 | H2]];
    destruct (Qlt_le_dec organic_matter 3) as [H3 | H3];
    (split; [set_solver |]);
    repeat split; intros; try discriminate; try lra;
    repeat match goal with H : _ /\ _ |- _ => destruct H end; try lra.
Qed.

Lemma soil_type_table_witness :
  Farm.get_soil_type 6.0 3.5 = "Clay Loam"
  /\ Farm.get_soil_type 7.2 4 = "Clay Loam".
Proof.
  split.
  - apply (proj2 (proj2 (proj2 (proj2 (proj2 (soil_type_table 6.0 3.5)))))).
    split; discriminate.
  - apply (proj2 (proj2 (proj2 (proj2 (proj2 (soil_type_table 7.2 4)))))).
    split; discriminate.
Defined.

Lemma preferences_cases (region_id : string) :
  Farm.preferences region_id
  ∈ [[0; 2; 4]; [0; 1; 3]; [1; 2; 4]; [1; 2; 3]; [0; 1; 2]].
Proof.
  assert (map_Forall
            (fun _ l => l ∈ [[0; 2; 4]; [0; 1; 3]; [1; 2; 4]; [1; 2; 3];
                             [0; 1; 2]])
            Farm.regional_preferences) as H
    by (apply (bool_decide_unpack _); vm_compute; reflexivity).
  unfold Farm.preferences.
  destruct (Farm.regional_preferences !! region_id) eqn:E.
  - exact (H _ _ E).
  - cbn. set_solver.
Qed.

(** X2. The irrigation types a region can be given are exactly its
    three preferred types: every result of [get_irrigation_type] is
    the type at one of the region's preference indices, and each
    preferred type is the result for one of the farm ids 0, 1, 2. *)
Theorem irrigation_type_range (region_id : string) :
  (forall farm_id t,
      Farm.get_irrigation_type region_id farm_id = Ok t ->
      t ∈ preferred_types region_id)
  /\ (forall t,
        t ∈ preferred_types region_id ->
        exists farm_id,
          0 <= farm_id < 3
          /\ Farm.get_irrigation_type region_id farm_id = Ok t)
  /\ length (preferred_types region_id) = 3%nat
  /\ preferred_types region_id ⊆ Farm.irrigation_types.
Proof.
  pose proof (preferences_cases region_id) as Hcases.
  unfold preferred_types, Farm.get_irrigation_type.
  set (prefs := Farm.preferences region_id) in *.
  assert (forall farm_id : Z,
             farm_id mod 3 = 0 \/ farm_id mod 3 = 1 \/ farm_id mod 3 = 2)
    as Hmod by (intros f; pose proof (Z.mod_pos_bound f 3); lia).
  repeat (apply elem_of_cons in Hcases as [-> | Hcases];
          [ split; [| split; [| split]];
            [ intros farm_id t; unfold Py.imod; cbn [length];
              change (Z.of_nat 3 =? 0) with false; cbv iota;
              change (Z.of_nat 3) with 3;
              destruct (Hmod farm_id) as [-> | [-> | ->]];
              intros [= <-]; apply (bool_decide_unpack _); reflexivity
            | intros t Ht; cbn in Ht;
              repeat (apply elem_of_cons in Ht as [-> | Ht];
                      [ first [ exists 0; split; [lia | reflexivity]
                              | exists 1; split; [lia | reflexivity]
                              | exists 2; split; [lia | reflexivity] ] |]);
              destruct (not_elem_of_nil _ Ht)
            | reflexivity
            | apply (bool_decide_unpack _); reflexivity ] |]).
  destruct (not_elem_of_nil _ Hcases).
Qed.

Lemma irrigation_type_range_witness :
  exists farm_id,
    0 <= farm_id < 3
    /\ Farm.get_irrigation_type "1" farm_id = Ok "Subsurface".
Proof.
  apply (proj1 (proj2 (irrigation_type_range "1"))).
  apply (bool_decide_unpack _). reflexivity.
Defined.

(** ** Python arithmetic used by the farm identity *)

Section FloatMod.
Local Open Scope Q_scope.




Lemma fmod_range (x m : Q) : 0 < m -> 0 <= Py.fmod x m /\ Py.fmod x m < m.
Proof.
  intros Hm. unfold Py.fmod.
  pose proof (Qfloor_le (x / m)) as Hlo.
  pose proof (Qlt_floor (x / m)) as Hhi.
  rewrite inject_Z_plus in Hhi. change (inject_Z 1) with 1 in Hhi.
  set (f := inject_Z (Qfloor (x / m))) in *.
  assert (x == m * (x / m)) as Hx by (field; lra).
  assert (m * f <= m * (x / m)) as H1
    by (apply Qmult_le_l; [exact Hm | exact Hlo]).
  assert (m * (x / m) < m * (f + 1)) as H2
    by (apply Qmult_lt_l; [exact Hm | exact Hhi]).
  rewrite <- Hx in H1, H2. split; lra.
Qed.


End FloatMod.

(** ** The assembled farm record *)

Section FarmIdentity.
Import Farm.

Lemma farm_record_full (w : world) (farm_id : Z) (region_id : string)
      (record : FarmData) :
  scrape_fao_farm_data w farm_id region_id = Ok record ->
  exists farm_name land_data fd it,
    Py.index (farm_list_of region_id)
             (farm_id mod Z.of_nat (length (farm_list_of region_id)))
    = Ok farm_name
    /\ content (land_response w) = Some land_data
    /\ field_distribution_of (crop_response w) = Ok fd
    /\ get_irrigation_type region_id farm_id = Ok it
    /\ record
       = {| farm_info :=
              {| id := farm_id;
                 farm_name := farm_name;
                 size := Py.round (farm_size_of land_data);
                 location :=
                   {| lat := (lat (base_coords_of region_id)
                              + Py.fmod (inject_Z farm_id * 0.1) 1.0)%Q;
                      lng := (lng (base_coords_of region_id)
                              + Py.fmod (inject_Z farm_id * 0.15) 1.5)%Q |};
                 soil_type :=
                   get_soil_type (ph (soil_data_of (soil_response w)))
                                 (organic_matter
                                    (soil_data_of (soil_response w)));
                 irrigation_type := it;
                 crops :=
                   map name (filter (fun item => name item <> "Fallow") fd) |};
            soil_analysis := soil_data_of (soil_response w);
            field_distribution := fd;
            water_usage :=
              map (fun im => synthesized_entry (pattern_of region_id)
                                               (fst im) (snd im))
                  (Py.enumerate months);
            risk_assessment := default_risk_assessment;
            data_source := "FAOSTAT (Scraped)" |}.
Proof.
  intros H. unfold scrape_fao_farm_data in H. cbv zeta in H.
  destruct (ok (site_response w)); cbn [negb] in H; [| discriminate].
  unfold Py.imod in H.
  destruct (Z.of_nat (length (farm_list_of region_id)) =? 0);
    cbn [Py.bind] in H; [discriminate |].
  destruct (Py.index (farm_list_of region_id) _) as [farm_name |];
    cbn [Py.bind] in H; [| discriminate].
  destruct (ok (land_response w)); cbn [negb] in H; [| discriminate].
  unfold Py.json in H.
  destruct (content (land_response w)) as [land_data |];
    cbn [Py.bind] in H; [| discriminate].
  destruct (field_distribution_of (crop_response w)) as [fd |];
    cbn [Py.bind] in H; [| discriminate].
  rewrite synthesize_series in H
    by (pose proof (pattern_of_positive region_id); lia).
  cbn [Py.bind] in H.
  destruct (get_irrigation_type region_id farm_id) as [it |];
    cbn [Py.bind] in H; [| discriminate].
  injection H as <-. exists farm_name, land_data, fd, it. auto.
Qed.


End FarmIdentity.



Section FarmLocation.
Import Farm.
Local Open Scope Q_scope.





End FarmLocation.



Section FarmPeriod.
Import Farm.

Lemma farm_list_length_cases (region_id : string) :
  length (farm_list_of region_id) = 3%nat
  \/ length (farm_list_of region_id) = 1%nat.
Proof.
  assert (map_Forall (fun _ (l : list string) => length l = 3%nat)
                     farm_names) as H
    by (apply (bool_decide_unpack _); vm_compute; reflexivity).
  unfold farm_list_of. destruct (farm_names !! region_id) eqn:E.
  - left. exact (H _ _ E).
  - right. reflexivity.
Qed.




End FarmPeriod.



(** X6. The water and risk documents are requested but never read:
    two runs that differ only in these two responses give the same
    result.  In every returned record the water usage is the series
    synthesized from the pattern of the region (region 1's for an
    unknown region): twelve entries labelled Jan..Dec, each with
    rainfall >= 0, irrigation >= 0 and 65 <= efficiency <= 90; the
    risk assessment is the default table of four entries, and the
    data source is always "FAOSTAT (Scraped)". *)
Theorem farm_synthetic_sections :
  (forall w w' farm_id region_id,
      Farm.site_response w = Farm.site_response w' ->
      Farm.land_response w = Farm.land_response w' ->
      Farm.soil_response w = Farm.soil_response w' ->
      Farm.crop_response w = Farm.crop_response w' ->
      Farm.scrape_fao_farm_data w farm_id region_id
      = Farm.scrape_fao_farm_data w' farm_id region_id)
  /\ (forall w farm_id region_id record,
        Farm.scrape_fao_farm_data w farm_id region_id = Ok record ->
        Farm.synthesize (Farm.pattern_of region_id)
        = Ok (Farm.water_usage record)
        /\ map Farm.month (Farm.water_usage record) = months
        /\ Forall in_bounds (Farm.water_usage record)
        /\ (region_id ∉ known_regions ->
            Farm.synthesize (Farm.pattern_of "1")
            = Ok (Farm.water_usage record))
        /\ Farm.risk_assessment record = Farm.default_risk_assessment
        /\ length (Farm.risk_assessment record) = 4%nat
        /\ Farm.data_source record = "FAOSTAT (Scraped)").
Proof.
  split.
  - intros w w' farm_id region_id Hsite Hland Hsoil Hcrop.
    unfold Farm.scrape_fao_farm_data.
    now rewrite Hsite, Hland, Hsoil, Hcrop.
  - intros w farm_id region_id record H.
    apply farm_record_full in H
      as (fname & ld & fd & it & _ & _ & _ & _ & ->).
    cbn [Farm.water_usage Farm.risk_assessment Farm.data_source].
    destruct (pattern_of_positive region_id) as [Hr Hi].
    assert (Farm.synthesize (Farm.pattern_of region_id)
            = Ok (map (fun im => synthesized_entry (Farm.pattern_of region_id)
                                                   (fst im) (snd im))
                      (Py.enumerate months))) as Hs
      by (apply synthesize_series; lia).
    split; [exact Hs |]. split; [| split; [| split]].
    + rewrite map_map. cbn [synthesized_entry Farm.month].
      change (map (fun im : Z * string => snd im) (Py.enumerate months))
        with ((Py.enumerate months).*2).
      apply enumerate_from_snd.
    + apply Forall_map, Forall_forall. intros [i m] _.
      apply synthesized_entry_in_bounds; lia.
    + intros Hunknown. rewrite <- Hs. f_equal.
      unfold Farm.pattern_of at 2. unfold Farm.patterns at 2.
      now rewrite unknown_lookup.
    + repeat split.
Qed.

Lemma farm_synthetic_sections_witness :
  exists record,
    Farm.scrape_fao_farm_data farm_run_defaults 7 "9" = Ok record
    /\ Farm.synthesize (Farm.pattern_of "1") = Ok (Farm.water_usage record)
    /\ Farm.risk_assessment record = Farm.default_risk_assessment.
Proof.
  eexists. split; [vm_compute; reflexivity |].
  destruct (proj2 farm_synthetic_sections farm_run_defaults 7 "9" _
                  ltac:(vm_compute; reflexivity))
    as (_ & _ & _ & Hunknown & Hrisk & _).
  split; [| exact Hrisk].
  apply Hunknown. unfold known_regions. intros H.
  repeat (apply elem_of_cons in H as [H | H]; [discriminate |]).
  destruct (not_elem_of_nil _ H).
Defined.



(** ** The crop mapping *)

Section CropMapping.
Import Farm.








End CropMapping.



Section FallowShare.
Import Farm.
Local Open Scope Q_scope.






End FallowShare.



Section Scaling.
Import Farm.
Local Open Scope Q_scope.






End Scaling.



(** * Further properties of the climate script *)

Section TableRows.
Import Climate.

Lemma read_row_app (acc : list MonthEntry) (ir : Z * list cell) :
  read_row acc ir = (acc ++ read_row [] ir)%list.
Proof.
  unfold read_row.
  destruct (fst ir <? Z.of_nat (length months));
    [| now rewrite app_nil_r].
  destruct (3 <=? Z.of_nat (length (snd ir))); [| now rewrite app_nil_r].
  destruct (snd ir !! 1%nat) as [[temp |] |]; try now rewrite app_nil_r.
  destruct (snd ir !! 2%nat) as [[rain |] |]; try now rewrite app_nil_r.
  destruct (Py.index months (fst ir)); [reflexivity | now rewrite app_nil_r].
Qed.

Lemma read_row_entry (i : Z) (cells : list cell) :
  0 <= i ->
  read_row [] (i, cells) = []
  \/ exists e,
      read_row [] (i, cells) = [e]
      /\ months !! Z.to_nat i = Some (month e)
      /\ cells !! 1%nat = Some (Some (temperature e))
      /\ cells !! 2%nat = Some (Some (rainfall e)).
Proof.
  intros Hi. unfold read_row. cbn [fst snd].
  destruct (i <? Z.of_nat (length months)) eqn:E; [| now left].
  destruct (3 <=? Z.of_nat (length cells)); [| now left].
  destruct (cells !! 1%nat) as [[temp |] |]; try now left.
  destruct (cells !! 2%nat) as [[rain |] |]; try now left.
  destruct (index_in_range months i) as (m & -> & Hm); [lia |].
  right. eexists. split; [reflexivity |]. cbn. auto.
Qed.

Lemma read_fold (l : list (Z * list cell)) (acc : list MonthEntry) :
  fold_left read_row l acc = (acc ++ flat_map (read_row []) l)%list.
Proof.
  revert acc. induction l as [| ir l IH]; intros acc; cbn.
  - now rewrite app_nil_r.
  - rewrite IH, (read_row_app acc ir), <- app_assoc. reflexivity.
Qed.

Lemma read_from_calendar (k : Z) (rows : list (list cell)) :
  0 <= k ->
  sublist (map month (flat_map (read_row []) (Py.enumerate_from k rows)))
          (drop (Z.to_nat k) months)
  /\ (length (flat_map (read_row []) (Py.enumerate_from k rows))
      <= length rows)%nat.
Proof.
  revert k. induction rows as [| cells rows IH]; intros k Hk.
  - split; [apply sublist_nil_l | cbn; lia].
  - destruct (IH (k + 1) ltac:(lia)) as (Hsub & Hlen).
    replace (Z.to_nat (k + 1)) with (S (Z.to_nat k)) in Hsub by lia.
    cbn [Py.enumerate_from flat_map].
    destruct (read_row_entry k cells Hk) as [-> | (e & -> & Hm & _)].
    + split; [| cbn; lia].
      etransitivity; [exact Hsub |].
      replace (drop (S (Z.to_nat k)) months)
        with (drop 1 (drop (Z.to_nat k) months))
        by (rewrite drop_drop; f_equal; lia).
      apply sublist_drop.
    + split; [| cbn; lia].
      cbn [app map]. rewrite (drop_S _ _ _ Hm). now apply sublist_skip.
Qed.

End TableRows.

(** X11. Reading a table only appends to the series: the entries it
    adds do not depend on what was gathered before, their months
    follow the calendar without repetition (the label comes from the
    position of the row, rows that are short or hold a cell that is
    not a number being left out), and there are at most 12 of them and
    at most one per row after the header.  The primary page adds the
    entries of each of its qualifying tables, one table after the
    other. *)
Theorem table_rows_in_calendar_order :
  (forall acc rows,
      Climate.read_rows acc rows
      = (acc ++ Climate.read_rows [] rows)%list)
  /\ (forall rows,
        sublist (map Climate.month (Climate.read_rows [] rows)) months
        /\ (length (Climate.read_rows [] rows) <= 12)%nat
        /\ (length (Climate.read_rows [] rows) <= length rows - 1)%nat)
  /\ (forall tables,
        Climate.read_tables tables = flat_map table_entries tables).
Proof.
  assert (forall acc rows,
             Climate.read_rows acc rows
             = (acc ++ flat_map (Climate.read_row [])
                                (Py.enumerate (tail rows)))%list) as Hrows
    by (intros; apply read_fold).
  split; [| split].
  - intros acc rows. rewrite !Hrows. reflexivity.
  - intros rows. rewrite Hrows. cbn [app].
    destruct (read_from_calendar 0 (tail rows) ltac:(lia)) as [Hsub Hlen].
    change (drop (Z.to_nat 0) months) with months in Hsub.
    split; [exact Hsub |]. split.
    + apply sublist_length in Hsub. rewrite length_map in Hsub. exact Hsub.
    + unfold Py.enumerate. destruct rows; cbn in *; lia.
  - intros tables. unfold Climate.read_tables.
    assert (forall acc,
               fold_left
                 (fun acc t =>
                    if Climate.qualifies t
                    then Climate.read_rows acc (Climate.tr t) else acc)
                 tables acc
               = (acc ++ flat_map table_entries tables)%list) as H.
    { induction tables as [| t tables IH]; intros acc; cbn.
      - now rewrite app_nil_r.
      - rewrite IH. unfold table_entries.
        destruct (Climate.qualifies t).
        + rewrite (Hrows acc), (Hrows []), <- app_assoc. reflexivity.
        + reflexivity. }
    apply H.
Qed.

Section ClimateRecord.
Import Climate.



End ClimateRecord.



Section ClimateLabels.
Import Climate.






End ClimateLabels.



(** * Names and outcomes *)

(** X14. The name of a returned farm is the entry of the region's name
    list at position [farm_id mod length], also for a negative farm
    id; a region outside "1".."5" has the single name "Unknown Farm",
    whatever the farm id. *)
Theorem farm_name_of_record (w : Farm.world) (farm_id : Z)
        (region_id : string) (record : Farm.FarmData) :
  Farm.scrape_fao_farm_data w farm_id region_id = Ok record ->
  let names := Farm.farm_list_of region_id in
  names !! Z.to_nat (farm_id mod Z.of_nat (length names))
  = Some (Farm.farm_name (Farm.farm_info record))
  /\ (length names = 3%nat \/ length names = 1%nat)
  /\ (region_id ∉ known_regions ->
      Farm.farm_name (Farm.farm_info record) = "Unknown Farm").
Proof.
  intros H names.
  apply farm_record_full in H
    as (fname & ld & fd & it & Hname & _ & _ & _ & ->).
  cbn [Farm.farm_name Farm.farm_info]. fold names in Hname.
  pose proof (farm_list_length region_id) as Hlen. fold names in Hlen.
  destruct (index_in_range names (farm_id mod Z.of_nat (length names)))
    as (x & Hx & Hl).
  { apply Z.mod_pos_bound. lia. }
  rewrite Hname in Hx. injection Hx as <-.
  split; [exact Hl |]. split; [apply farm_list_length_cases |].
  intros Hunknown.
  assert (names = ["Unknown Farm"]) as E.
  { unfold names, Farm.farm_list_of, Farm.farm_names.
    now rewrite unknown_lookup. }
  rewrite E in Hl. cbn [length] in Hl. change (Z.of_nat 1) with 1 in Hl.
  rewrite Z.mod_1_r in Hl. cbn in Hl. now injection Hl as <-.
Qed.

Lemma farm_name_of_record_witness :
  exists record,
    Farm.scrape_fao_farm_data farm_run_defaults (-2) "3" = Ok record
    /\ Farm.farm_list_of "3" !! 1%nat
       = Some (Farm.farm_name (Farm.farm_info record)).
Proof.
  eexists. split; [vm_compute; reflexivity |].
  destruct (farm_name_of_record farm_run_defaults (-2) "3" _
              ltac:(vm_compute; reflexivity)) as (Hname & _).
  exact Hname.
Defined.





(** * Range of the percentages *)

Section PercentRange.
Import Farm.
Local Open Scope Q_scope.

Lemma value_le_sum (d : list (string * Q)) (cv : string * Q) :
  nonneg_values d -> cv ∈ d -> snd cv <= Qsum d.*2.
Proof.
  unfold nonneg_values, Qsum.
  induction d as [| [k v] d IH]; intros Hnn Hin.
  - destruct (not_elem_of_nil _ Hin).
  - inversion Hnn as [| ? ? Hv Hd]; subst. cbn in Hv. cbn.
    assert (0 <= foldr Qplus 0 d.*2) as Hsum.
    { clear IH Hin Hnn. induction Hd as [| [k' v'] d Hv' Hd IH]; cbn.
      - discriminate.
      - cbn in Hv'. lra. }
    apply elem_of_cons in Hin as [-> | Hin]; cbn; [lra |].
    specialize (IH Hd Hin). lra.
Qed.

Lemma percentages_range (crops : list (string * Q)) (total : Q) :
  0 < total -> nonneg_values crops -> Qsum crops.*2 <= total ->
  Forall (fun e => (0 <= value e <= 70)%Z) (percentages crops total).
Proof.
  intros Ht Hnn Hsum. unfold percentages. apply Forall_map, Forall_forall.
  intros cv Hin. cbn [value].
  pose proof (value_le_sum crops cv Hnn Hin) as Hle.
  unfold nonneg_values in Hnn. rewrite Forall_forall in Hnn.
  specialize (Hnn cv Hin). cbn in Hnn.
  split.
  - apply (round_lower 0). now apply share_nonneg.
  - apply (round_upper 70).
    assert (snd cv / total <= 1) as H1
      by (apply Qle_shift_div_r; [exact Ht | lra]).
    change (inject_Z 70) with 70. lra.
Qed.

End PercentRange.

(** X17. When the values of the crop rows are non-negative, every
    percentage of the distribution returned for them lies between 0
    and 100: a crop gets at most 70 and the last entry, Fallow, is at
    least 5. *)
Theorem distribution_range (rows : list Farm.crop_item) :
  nonneg_rows rows ->
  let fd := Farm.normalize (fst (Farm.accumulate rows))
                           (snd (Farm.accumulate rows)) in
  Forall (fun e => 0 <= Farm.value e <= 100) fd
  /\ Forall (fun e => Farm.name e <> "Fallow" -> Farm.value e <= 70) fd
  /\ exists fallow,
      last fd = Some {| Farm.name := "Fallow"; Farm.value := fallow |}
      /\ 5 <= fallow <= 100.
Proof.
  intros Hrows fd.
  destruct (accumulate_invariant rows ([], 0%Q) Hrows) as [Hnn Hsum].
  { constructor. }
  { cbn. apply Qle_refl. }
  fold (Farm.accumulate rows) in Hnn, Hsum.
  subst fd. unfold Farm.normalize.
  destruct (Qlt_le_dec 0 (snd (Farm.accumulate rows))) as [Ht | _].
  - pose proof (percentages_range _ _ Ht Hnn Hsum) as Hr.
    set (pc := Farm.percentages (fst (Farm.accumulate rows))
                                (snd (Farm.accumulate rows))) in *.
    assert (0 <= Py.sum (map Farm.value pc)) as Hpos.
    { clear -Hr. induction Hr as [| e l [He _] _ IH]; cbn; [lia |].
      unfold Py.sum in *. cbn. lia. }
    unfold Farm.add_fallow. split; [| split].
    + apply Forall_app. split.
      * eapply Forall_impl; [exact Hr |]. cbn. intros e He. lia.
      * repeat constructor; cbn; lia.
    + apply Forall_app. split.
      * eapply Forall_impl; [exact Hr |]. cbn. intros e He _. lia.
      * repeat constructor. cbn. congruence.
    + eexists. rewrite last_snoc. split; [reflexivity | lia].
  - split; [| split].
    + repeat constructor; cbn; lia.
    + repeat constructor; cbn; intros; try lia; congruence.
    + exists 10. split; [reflexivity | lia].
Qed.

Lemma distribution_range_witness :
  Forall (fun e => 0 <= Farm.value e <= 100)
         (Farm.normalize (fst (Farm.accumulate hundred_crops))
                         (snd (Farm.accumulate hundred_crops))).
Proof.
  apply (distribution_range hundred_crops).
  unfold nonneg_rows, hundred_crops. apply Forall_map, Forall_forall.
  intros n _ v [= <-]. discriminate.
Defined.
